(** * Document reviews and document-version views

  A shallow embedding of
    - [mayan/apps/document_reviews/models.py]   (the [Review] model), and
    - [mayan/apps/documents/views/document_version_views.py]
      (the document-version request handlers),
  together with the properties their specification states about them.

  Python values are modelled by the small universe [PyVal]; code that
  raises or touches the database, the message storage, the audit log or
  the task queue runs in the state-and-exception monad [M] over [World]. *)

From Stdlib Require Import ZArith String Ascii List Bool Lia.
From Stdlib Require Import Sorting.Sorted Sorting.Permutation.
From stdpp Require Import gmap strings list fin_maps sorting.

Local Open Scope string_scope.
Local Open Scope Z_scope.

(** ** Python runtime: values, exceptions, effects *)

Module Py.

(** The values that reach the code under study: [str], [bool] and [None]. *)
Inductive PyVal : Type :=
| PyStr (s : string)
| PyBool (b : bool)
| PyNone.

(** [a == b] on those values.  A [str] never equals a [bool] or [None]. *)
Definition py_eq (a b : PyVal) : bool :=
  match a, b with
  | PyStr s, PyStr t => String.eqb s t
  | PyBool x, PyBool y => Bool.eqb x y
  | PyNone, PyNone => true
  | _, _ => false
  end.

(** Truth value of a [str]: the empty string is falsy. *)
Definition str_truthy (s : string) : bool :=
  match s with
  | EmptyString => false
  | String _ _ => true
  end.

(** The classes an exception object may belong to.  [Exception] is the
    root of the ordinary errors; the three others derive from
    [BaseException] only, so an [except Exception] clause lets them pass. *)
Inductive ExcClass : Type :=
| ExceptionClass (name : string)
| SystemExit
| KeyboardInterrupt
| GeneratorExit.

Record PyException : Type := mkExc {
  exc_class : ExcClass;
  exc_str : string            (* what [str(exception)] returns *)
}.

(** [isinstance(e, Exception)] *)
Definition isinstance_Exception (e : PyException) : bool :=
  match exc_class e with
  | ExceptionClass _ => true
  | _ => false
  end.

Inductive Outcome (A : Type) : Type :=
| Return (a : A)
| Raise (e : PyException).
Arguments Return {A} a.
Arguments Raise {A} e.

Section Monad.
Context {W : Type}.

(** A computation over the store [W] that returns or raises. *)
Definition M (A : Type) : Type := W -> Outcome A * W.

Definition ret {A} (a : A) : M A := fun w => (Return a, w).

Definition bind {A B} (m : M A) (k : A -> M B) : M B :=
  fun w =>
    match m w with
    | (Return a, w') => k a w'
    | (Raise e, w') => (Raise e, w')
    end.

Definition raise {A} (e : PyException) : M A := fun w => (Raise e, w).

Definition modify (f : W -> W) : M unit := fun w => (Return tt, f w).

Definition gets {A} (f : W -> A) : M A := fun w => (Return (f w), w).

(** [try: body  except Exception as e: handler e] *)
Definition try_except_Exception {A} (body : M A)
    (handler : PyException -> M A) : M A :=
  fun w =>
    match body w with
    | (Return a, w') => (Return a, w')
    | (Raise e, w') =>
        if isinstance_Exception e then handler e w' else (Raise e, w')
    end.

(** [for x in xs: body x] *)
Fixpoint for_each {A} (xs : list A) (body : A -> M unit) : M unit :=
  match xs with
  | [] => ret tt
  | x :: rest => bind (body x) (fun _ => for_each rest body)
  end.
End Monad.
Arguments M W A : clear implicits.

Declare Scope py_scope.
Delimit Scope py_scope with py.
Notation "x <- m ;; k" := (bind m (fun x => k))
  (at level 100, m at next level, right associativity) : py_scope.
Notation "m ;; k" := (bind m (fun _ => k))
  (at level 100, right associativity) : py_scope.

End Py.
Import Py.

(** ** Django: request parameters, message levels, plural forms *)

Module Django.

(** A [QueryDict] in parse order: one pair per [key=value] occurrence of
    the query string or the form body.  A key may occur several times. *)
Definition QueryDict : Type := list (string * string).

(** [QueryDict.getlist(key)]: every value given for [key], in order. *)
Definition getlist (q : QueryDict) (key : string) : list string :=
  List.map snd (List.filter (fun kv => String.eqb (fst kv) key) q).

(** [QueryDict.get(key, default)]: the last value given for [key], or
    [default] when the key does not occur. *)
Definition get (q : QueryDict) (key : string) (default : PyVal) : PyVal :=
  match List.rev (getlist q key) with
  | [] => default
  | v :: _ => PyStr v
  end.

(** [key in q] *)
Definition contains (q : QueryDict) (key : string) : bool :=
  existsb (fun kv => String.eqb (fst kv) key) q.

(** [django.contrib.messages] levels used by the views. *)
Inductive Level : Type := SUCCESS | ERROR.

(** [ungettext(singular, plural, number)] with no catalogue loaded: the
    source strings themselves, the singular one for exactly one. *)
Definition ungettext (singular plural : string) (number : Z) : string :=
  if number =? 1 then singular else plural.

End Django.
Import Django.

(** ** Model instances and the store behind them *)

Module Store.


(** An instance of [settings.AUTH_USER_MODEL]; [full_name] is what its
    [get_full_name()] method returns. *)
Record User : Type := mkUser {
  user_pk : Z;
  username : string;
  full_name : string
}.

Record Document : Type := mkDocument {
  document_pk : Z;
  document_label : string
}.

Record DocumentVersion : Type := mkVersion {
  version_pk : Z;
  version_document : Document;
  timestamp : Z
}.

(** A [Review] instance.  [pk] is [None] until the first save gives the
    instance a row; [submit_date] is [None] until then as well. *)
Record Review : Type := mkReview {
  pk : option Z;
  document : Document;
  user : User;
  addlcomments : string;
  submit_date : option Z
}.

(** *** Audit events and queued tasks *)

Inductive EventType : Type :=
| event_document_review_created
| event_document_review_edited
| event_document_review_deleted
| event_document_view.

(** What an event argument may point at. *)
Inductive Obj : Type :=
| ObjUser (u : User)
| ObjDocument (d : Document)
| ObjReview (r : Review).

(** One entry of the audit log. *)
Record Action : Type := mkAction {
  verb : EventType;
  actor : option Obj;
  action_object : option Obj;
  target : option Obj
}.

Inductive Task : Type := task_update_page_count.

(** A message put on the task queue: the task and its keyword arguments. *)
Record Job : Type := mkJob {
  job_task : Task;
  job_kwargs : list (string * Z)
}.

(** *** The store the code runs against *)

Record World : Type := mkWorld {
  review_table : gmap Z Review;         (* rows of [Review], by primary key *)
  version_table : list DocumentVersion; (* rows of [DocumentVersion] *)
  clock : Z;                            (* [timezone.now()] *)
  actions : list Action;                (* the audit log, oldest first *)
  recent_documents : gset (Z * Z);      (* (user, document) pairs *)
  message_storage : list (Level * string);
  task_queue : list Job
}.

Definition set_review_table (t : gmap Z Review) (w : World) : World :=
  mkWorld t (version_table w) (clock w) (actions w)
          (recent_documents w) (message_storage w) (task_queue w).

Definition set_actions (l : list Action) (w : World) : World :=
  mkWorld (review_table w) (version_table w) (clock w) l
          (recent_documents w) (message_storage w) (task_queue w).

Definition set_recent_documents (s : gset (Z * Z)) (w : World) : World :=
  mkWorld (review_table w) (version_table w) (clock w)
          (actions w) s (message_storage w) (task_queue w).

Definition set_message_storage (l : list (Level * string)) (w : World) : World :=
  mkWorld (review_table w) (version_table w) (clock w)
          (actions w) (recent_documents w) l (task_queue w).

Definition set_task_queue (l : list Job) (w : World) : World :=
  mkWorld (review_table w) (version_table w) (clock w)
          (actions w) (recent_documents w) (message_storage w) l.

(** [messages.success(message=..., request=...)] *)
Definition messages_success (message : string) : M World unit :=
  modify (fun w => set_message_storage (message_storage w ++ [(SUCCESS, message)]) w).

(** [messages.error(message=..., request=...)] *)
Definition messages_error (message : string) : M World unit :=
  modify (fun w => set_message_storage (message_storage w ++ [(ERROR, message)]) w).

(** [task.apply_async(kwargs=...)]: put one job on the queue. *)
Definition apply_async (t : Task) (kwargs : list (string * Z)) : M World unit :=
  modify (fun w => set_task_queue (task_queue w ++ [mkJob t kwargs]) w).

(** [queryset.order_by('-timestamp')] on version rows. *)
Definition newer_or_same (a b : DocumentVersion) : Prop :=
  timestamp b <= timestamp a.

#[global] Instance newer_or_same_dec (a b : DocumentVersion)
    : Decision (newer_or_same a b) := Z.le_dec (timestamp b) (timestamp a).

Definition order_by_minus_timestamp (rows : list DocumentVersion)
    : list DocumentVersion :=
  merge_sort newer_or_same rows.

End Store.
Import Store.

(** ** The events application, as the specification describes it *)

Module Events.

(** Modelled from the spec: [EventType.commit], whose code is not part of
    the two modules.  "audit-event emission service (collaborator, records
    actor/action-object/target triples)": committing appends one entry to
    the audit log and is "not expected to fail". *)
Definition commit (ev : EventType) (actor action_object target : option Obj)
    : M World unit :=
  modify (fun w =>
    set_actions (actions w ++ [mkAction ev actor action_object target]) w).

(** The keyword arguments a [method_event] decorator is given for one
    event: the event and, per argument, the name of the attribute of the
    instance that supplies it (['self'] for the instance itself). *)
Record EventArgs : Type := mkEventArgs {
  ea_event : EventType;
  ea_actor : option string;
  ea_action_object : option string;
  ea_target : option string
}.

(** Modelled from the spec: how an attribute name of the decorator is
    turned into the object the event carries ("attributed to the
    submitting user, with the document as the related object and the
    review as event target"). *)
Definition resolve_attribute (self : Review) (name : option string)
    : option Obj :=
  match name with
  | None => None
  | Some n =>
      if String.eqb n "self" then Some (ObjReview self)
      else if String.eqb n "user" then Some (ObjUser (user self))
      else if String.eqb n "document" then Some (ObjDocument (document self))
      else None
  end.

Definition commit_for (self : Review) (a : EventArgs) : M World unit :=
  commit (ea_event a)
         (resolve_attribute self (ea_actor a))
         (resolve_attribute self (ea_action_object a))
         (resolve_attribute self (ea_target a)).

(** Modelled from the spec: [method_event] with [EventManagerMethodAfter].
    "All event emission is a side effect layered transparently around the
    underlying persist/delete operation; failure of the underlying
    operation aborts without emitting the event": the method runs first
    and the event is committed once it has returned. *)
Definition method_event_after {A} (a : EventArgs)
    (method : Review -> M World A) (self : Review) : M World A :=
  (result <- method self ;;
   commit_for self a ;;
   ret result)%py.

(** Modelled from the spec: [method_event] with [EventManagerSave].
    "persisting a Review either inserts a new row (emitting a review
    created event ...) or updates an existing row (emitting a review
    edited event)"; as above nothing is emitted when the underlying save
    fails.  The events carry the instance as it is after the save. *)
Definition method_event_save (created edited : EventArgs)
    (method : Review -> M World Review) (self : Review) : M World Review :=
  (existing <- gets (fun w => match pk self with
                              | Some k => bool_decide (is_Some (review_table w !! k))
                              | None => false
                              end) ;;
   saved <- method self ;;
   commit_for saved (if existing then edited else created) ;;
   ret saved)%py.

End Events.
Import Events.

(** ** [mayan/apps/document_reviews/models.py] *)

Module Reviews.

(** The options a field of the model is declared with, as far as they
    bear on who may write the field. *)
Record FieldOptions : Type := mkField {
  editable : bool;
  auto_now_add : bool
}.

(** [document = models.ForeignKey(db_index=True, on_delete=CASCADE, ...)] *)
Definition field_document : FieldOptions := mkField true false.
(** [user = models.ForeignKey(editable=False, on_delete=CASCADE, ...)] *)
Definition field_user : FieldOptions := mkField false false.
(** [addlcomments = models.TextField(...)] *)
Definition field_addlcomments : FieldOptions := mkField true false.
(** [submit_date = models.DateTimeField(auto_now_add=True, db_index=True, ...)] *)
Definition field_submit_date : FieldOptions := mkField true true.

(** Django's [DateTimeField] forces [editable=False] on a field declared
    with [auto_now_add]; this is the field's [editable] attribute after
    construction. *)
Definition is_editable (f : FieldOptions) : bool :=
  editable f && negb (auto_now_add f).

(** [DateTimeField.pre_save(instance, add)]: a field with [auto_now_add]
    takes the current time when the row is added, and otherwise the value
    the instance holds. *)
Definition pre_save (f : FieldOptions) (add : bool) (now : Z)
    (held : option Z) : option Z :=
  if auto_now_add f && add then Some now else held.

(** The validated data of a model form: a value for each field the form
    submitted. *)
Record CleanedData : Type := mkCleaned {
  cd_document : option Document;
  cd_user : option User;
  cd_addlcomments : option string;
  cd_submit_date : option Z
}.

(** [construct_instance(form, instance)]: a submitted value is written to
    the instance only if its field is editable. *)
Definition construct_instance (cd : CleanedData) (self : Review) : Review :=
  {| pk := pk self;
     document := match cd_document cd with
                 | Some d => if is_editable field_document then d else document self
                 | None => document self
                 end;
     user := match cd_user cd with
             | Some u => if is_editable field_user then u else user self
             | None => user self
             end;
     addlcomments := match cd_addlcomments cd with
                     | Some t => if is_editable field_addlcomments then t
                                 else addlcomments self
                     | None => addlcomments self
                     end;
     submit_date := match cd_submit_date cd with
                    | Some t => if is_editable field_submit_date then Some t
                                else submit_date self
                    | None => submit_date self
                    end |}.

Definition IntegrityError : PyException :=
  mkExc (ExceptionClass "IntegrityError")
        "NOT NULL constraint failed: document_reviews_review.submit_date".

Definition AssertionError : PyException :=
  mkExc (ExceptionClass "AssertionError")
        "Review object can't be deleted because its id attribute is set to None.".

(** [models.Model.save]: update the row of the instance's primary key
    when there is one, insert a row otherwise (under a key the table
    does not use when the instance has none).  Returns the instance as
    the call leaves it. *)
Definition Model_save (self : Review) : M World Review :=
  fun w =>
    let table := review_table w in
    let existing := match pk self with
                    | Some k => bool_decide (is_Some (table !! k))
                    | None => false
                    end in
    let k := match pk self with
             | Some k => k
             | None => fresh (dom table)
             end in
    match pre_save field_submit_date (negb existing) (clock w) (submit_date self) with
    | None => (Raise IntegrityError, w)
    | Some d =>
        let saved := mkReview (Some k) (document self) (user self)
                              (addlcomments self) (Some d) in
        (Return saved, set_review_table (<[k := saved]> table) w)
    end.

(** [models.Model.delete]: refuses an instance without primary key,
    otherwise removes its row; returns the number of rows removed. *)
Definition Model_delete (self : Review) : M World Z :=
  fun w =>
    match pk self with
    | None => (Raise AssertionError, w)
    | Some k =>
        (Return (if bool_decide (is_Some (review_table w !! k)) then 1 else 0),
         set_review_table (base.delete k (review_table w)) w)
    end.

Definition _event_created_event : EventType := event_document_review_created.
Definition _event_edited_event : EventType := event_document_review_created.

(** [__str__] *)
Definition str (self : Review) : string := addlcomments self.

(** The arguments of the decorator of [delete]. *)
Definition delete_event : EventArgs :=
  {| ea_event := event_document_review_deleted;
     ea_actor := None;
     ea_action_object := None;
     ea_target := Some "document" |}.

Definition delete (self : Review) : M World Z :=
  method_event_after delete_event Model_delete self.

Definition get_user_label (self : Review) : string :=
  if str_truthy (full_name (user self)) then full_name (user self)
  else username (user self).

(** The arguments of the decorator of [save]. *)
Definition save_created : EventArgs :=
  {| ea_event := event_document_review_created;
     ea_actor := Some "user";
     ea_action_object := Some "document";
     ea_target := Some "self" |}.

Definition save_edited : EventArgs :=
  {| ea_event := event_document_review_edited;
     ea_actor := None;
     ea_action_object := Some "document";
     ea_target := Some "self" |}.

Definition save (self : Review) : M World Review :=
  method_event_save save_created save_edited Model_save self.

End Reviews.

(** ** What the views use of the documents application *)

Module Documents.

(** The methods of [DocumentVersion] the views call.  Their bodies belong
    to the model, so the views are studied for every implementation. *)
Class VersionMethods : Type := {
  revert : DocumentVersion -> User -> M World unit;
  get_rendered_string : DocumentVersion -> bool -> string;
  version_str : DocumentVersion -> string
}.

(** Modelled from the spec: [Document.add_as_recent_document_for_user],
    defined with the [Document] model.  "tracks recently accessed state
    per user": the call "marks the document as recently accessed by the
    requesting user". *)
Definition add_as_recent_document_for_user (d : Document) (u : User)
    : M World unit :=
  modify (fun w =>
    set_recent_documents ({[ (user_pk u, document_pk d) ]} ∪ recent_documents w) w).

(** [document.versions]: the version rows whose foreign key is [d]. *)
Definition versions (d : Document) (w : World) : list DocumentVersion :=
  List.filter (fun v => document_pk (version_document v) =? document_pk d)
              (version_table w).

End Documents.
Import Documents.

(** ** [mayan/apps/documents/views/document_version_views.py] *)

Record HttpRequest : Type := mkRequest {
  request_user : User;
  GET : QueryDict;
  POST : QueryDict
}.

Record HttpResponse : Type := mkResponse {
  status_code : Z;
  content : string
}.

(** A value of a template context. *)
Inductive ContextValue : Type :=
| CtxStr (s : string)
| CtxVersion (v : DocumentVersion)
| CtxNone.

Module DocumentVersionDownloadView.
Section WithVersionMethods.
Context `{VersionMethods}.

(** The value [get_item_filename] first binds [preserve_extension] to. *)
Definition preserve_extension_param (request : HttpRequest) : PyVal :=
  Django.get (GET request) "preserve_extension"
    (Django.get (POST request) "preserve_extension" (PyBool false)).

(** The value [preserve_extension] is rebound to. *)
Definition preserve_extension (request : HttpRequest) : bool :=
  py_eq (preserve_extension_param request) (PyStr "true")
  || py_eq (preserve_extension_param request) (PyStr "True").

Definition get_item_filename (request : HttpRequest) (item : DocumentVersion)
    : string :=
  get_rendered_string item (preserve_extension request).

End WithVersionMethods.
End DocumentVersionDownloadView.

Module DocumentVersionListView.

Record View : Type := mkView {
  request : HttpRequest;
  external_object : Document
}.

Definition get_document (self : View) : M World Document :=
  (let document := external_object self in
   add_as_recent_document_for_user document (request_user (request self)) ;;
   ret document)%py.

Definition get_source_queryset (self : View) : M World (list DocumentVersion) :=
  (document <- get_document self ;;
   rows <- gets (versions document) ;;
   ret (order_by_minus_timestamp rows))%py.

End DocumentVersionListView.

Module DocumentVersionRevertView.
Section WithVersionMethods.
Context `{VersionMethods}.

Record View : Type := mkView {
  request : HttpRequest;
  external_object : DocumentVersion
}.

Definition get_object (self : View) : DocumentVersion := external_object self.

Definition view_action (self : View) : M World unit :=
  try_except_Exception
    (revert (get_object self) (request_user (request self)) ;;
     messages_success "Document version reverted successfully")%py
    (fun exception =>
       messages_error
         ("Error reverting document version; " +:+ exc_str exception)).

End WithVersionMethods.
End DocumentVersionRevertView.

Module DocumentVersionUpdatePageCountView.
Section WithVersionMethods.
Context `{VersionMethods}.

(** [queryset.count()] *)
Definition count (queryset : list DocumentVersion) : Z :=
  Z.of_nat (List.length queryset).

(** [queryset.first()] *)
Definition first (queryset : list DocumentVersion) : option DocumentVersion :=
  head queryset.

(** ['...%s?' % obj] for the object [first] returned. *)
Definition percent_s (obj : option DocumentVersion) : string :=
  match obj with
  | Some v => version_str v
  | None => "None"
  end.

Definition context_object (obj : option DocumentVersion) : ContextValue :=
  match obj with
  | Some v => CtxVersion v
  | None => CtxNone
  end.

Definition get_extra_context (queryset : list DocumentVersion)
    : gmap string ContextValue :=
  let result : gmap string ContextValue :=
    {[ "title" := CtxStr (ungettext
         "Recalculate the page count of the selected document version?"
         "Recalculate the page count of the selected document versions?"
         (count queryset)) ]} in
  if count queryset =? 1 then
    <[ "title" := CtxStr ("Recalculate the page count of the document version: "
                          +:+ percent_s (first queryset) +:+ "?") ]>
      (<[ "object" := context_object (first queryset) ]> result)
  else result.

Definition object_action (instance : DocumentVersion) : M World unit :=
  apply_async task_update_page_count [("version_id", version_pk instance)].

(** Modelled from the spec: the [view_action] of
    [MultipleObjectConfirmActionView], which the view inherits.  "for each
    selected version, asynchronously enqueues a page-count recalculation
    job": the action is run once per selected object, in order. *)
Definition view_action (object_list : list DocumentVersion) : M World unit :=
  for_each object_list object_action.

End WithVersionMethods.
End DocumentVersionUpdatePageCountView.

Module DocumentVersionView.

Record View : Type := mkView {
  object : DocumentVersion;
  (** [SingleObjectDetailView.dispatch], reached through [super()] *)
  super_dispatch : HttpRequest -> M World HttpResponse
}.

Definition get_object (self : View) : DocumentVersion := object self.

Definition dispatch (self : View) (request : HttpRequest) : M World HttpResponse :=
  (result <- super_dispatch self request ;;
   add_as_recent_document_for_user
     (version_document (get_object self)) (request_user request) ;;
   commit event_document_view
     (Some (ObjUser (request_user request))) None
     (Some (ObjDocument (version_document (get_object self)))) ;;
   ret result)%py.

End DocumentVersionView.

(** ** More of the two modules *)

(** *** [Review.Meta]: default ordering and [get_latest_by] *)

Module ReviewManager.

(** The submission date a row is ordered by.  The column is NOT NULL, so a
    stored row always has one. *)
Definition submitted (r : Review) : Z := default 0 (submit_date r).

(** [ordering = ('-submit_date',)] *)
Definition later_or_same (a b : Review) : Prop := submitted b <= submitted a.

#[global] Instance later_or_same_dec (a b : Review)
    : Decision (later_or_same a b) := Z.le_dec (submitted b) (submitted a).

(** The rows of the table, in no particular order. *)
Definition rows (w : World) : list Review :=
  (map_to_list (review_table w)).*2.

(** [Review.objects.all()]: the rows in the model's default ordering. *)
Definition all (w : World) : list Review := merge_sort later_or_same (rows w).

Definition DoesNotExist : PyException :=
  mkExc (ExceptionClass "DoesNotExist") "Review matching query does not exist.".

(** [Review.objects.latest()] with [get_latest_by = 'submit_date']: the
    first row by descending submission date; an empty table has none. *)
Definition latest : M World Review :=
  fun w =>
    match all w with
    | [] => (Raise DoesNotExist, w)
    | r :: _ => (Return r, w)
    end.

End ReviewManager.

(** *** Any run of calls to [Review.save] and [Review.delete] *)

Inductive ReviewCall : Type :=
| CallSave (self : Review)
| CallDelete (self : Review).

(** The store after one call, whether it returned or raised. *)
Definition call (c : ReviewCall) (w : World) : World :=
  match c with
  | CallSave self => snd (Reviews.save self w)
  | CallDelete self => snd (Reviews.delete self w)
  end.

Definition calls (cs : list ReviewCall) (w : World) : World :=
  fold_left (fun w c => call c w) cs w.

(** *** [DocumentVersionListView.get_extra_context] *)

(** A value of the list view's template context. *)
Inductive TemplateValue : Type :=
| TplBool (b : bool)
| TplStr (s : string)
| TplDocument (d : Document).

(** [Document.__str__], which belongs to the document model. *)
Class DocumentMethods : Type := {
  document_str : Document -> string
}.

Module ListViewContext.
Section WithDocumentMethods.
Context `{DocumentMethods}.
Import DocumentVersionListView.

(** The dictionary is built entry by entry, so [get_document] runs once
    for ['object'] and once more for ['title']. *)
Definition get_extra_context (self : View) : M World (gmap string TemplateValue) :=
  (object <- get_document self ;;
   named <- get_document self ;;
   ret (<[ "hide_object" := TplBool true ]>
        (<[ "list_as_items" := TplBool true ]>
         (<[ "object" := TplDocument object ]>
          (<[ "table_cell_container_classes" := TplStr "td-container-thumbnail" ]>
           (<[ "title" :=
                 TplStr ("Versions of document: " +:+ document_str named) ]>
              ∅))))))%py.

End WithDocumentMethods.
End ListViewContext.

(** *** Vocabulary of the further properties *)

(** The audit entries of a created and of an edited review. *)
Definition created_entry (saved : Review) : Action :=
  mkAction event_document_review_created (Some (ObjUser (user saved)))
           (Some (ObjDocument (document saved))) (Some (ObjReview saved)).

Definition edited_entry (saved : Review) : Action :=
  mkAction event_document_review_edited None
           (Some (ObjDocument (document saved))) (Some (ObjReview saved)).


(** Two stores that differ at most in the review table and the audit log. *)
Definition same_elsewhere (w w' : World) : Prop :=
  version_table w' = version_table w /\ clock w' = clock w
  /\ recent_documents w' = recent_documents w
  /\ message_storage w' = message_storage w /\ task_queue w' = task_queue w.

(** ** Vocabulary of the properties *)

Definition key : string := "preserve_extension".

Definition success_notice : Level * string :=
  (SUCCESS, "Document version reverted successfully").

Definition error_notice (e : PyException) : Level * string :=
  (ERROR, "Error reverting document version; " +:+ exc_str e).

Definition notify (n : Level * string) (w : World) : World :=
  set_message_storage (message_storage w ++ [n]) w.

(** The job the action queues for one version. *)
Definition job_for (v : DocumentVersion) : Job :=
  mkJob task_update_page_count [("version_id", version_pk v)].

Definition plural_title : string :=
  "Recalculate the page count of the selected document versions?".

(** The audit entry of a viewed document. *)
Definition viewed (u : User) (d : Document) : Action :=
  mkAction event_document_view (Some (ObjUser u)) None (Some (ObjDocument d)).

(** Whether the instance's primary key has a row: the save is an update
    then, and an insert otherwise. *)
Definition row_exists (self : Review) (w : World) : bool :=
  match pk self with
  | Some k => bool_decide (is_Some (review_table w !! k))
  | None => false
  end.

(** The key [Model_save] writes the row under. *)
Definition row_key (self : Review) (w : World) : Z :=
  match pk self with
  | Some k => k
  | None => fresh (dom (review_table w))
  end.

Definition log (a : Action) (w : World) : World :=
  set_actions (actions w ++ [a]) w.

(** The audit entry of a deleted review. *)
Definition deleted_entry (self : Review) : Action :=
  mkAction event_document_review_deleted None None
           (Some (ObjDocument (document self))).

(** Every row sits under its own primary key and has a submission date. *)
Definition well_formed (w : World) : Prop :=
  forall k row, review_table w !! k = Some row ->
    pk row = Some k /\ is_Some (submit_date row).

Section TitleNaming.
Context `{VersionMethods}.

(** The title that names one version. *)
Definition title_naming (v : DocumentVersion) : string :=
  "Recalculate the page count of the document version: "
  +:+ version_str v +:+ "?".

End TitleNaming.

(** ** Sample data *)

Definition some_user : User := mkUser 1 "jdoe" "".
Definition some_document : Document := mkDocument 7 "report".
Definition some_version : DocumentVersion := mkVersion 3 some_document 100.

Definition empty_world : World :=
  mkWorld ∅ [] 0 [] ∅ [] [].

(** An instance that was never saved. *)
Definition unsaved_review : Review :=
  mkReview None some_document some_user "looks fine" None.

(** A review as its first save stored it, and a table holding just it. *)
Definition stored_review : Review :=
  mkReview (Some 1) some_document some_user "first thoughts" (Some 10).

Definition world_with_review : World :=
  mkWorld {[ 1 := stored_review ]} [] 20 [] ∅ [] [].

(** A form that submits a new comment, and tries for the user and the
    date as well. *)
Definition other_user : User := mkUser 2 "mallory" "Mallory M".

Definition tampering_form : Reviews.CleanedData :=
  Reviews.mkCleaned None (Some other_user) (Some "second thoughts") (Some 99).

Definition older_version : DocumentVersion := mkVersion 2 some_document 50.

(** A preview view whose inherited [dispatch] answers with a page. *)
Definition preview_page : HttpResponse := mkResponse 200 "preview".

Definition preview_view : DocumentVersionView.View :=
  DocumentVersionView.mkView some_version (fun _ => ret preview_page).

Definition plain_request : HttpRequest := mkRequest some_user [] [].

(** A version model whose [revert] fails with an ordinary error. *)
Definition failing_revert : VersionMethods :=
  {| revert := fun _ _ => raise (mkExc (ExceptionClass "ValueError") "no such file");
     get_rendered_string := fun _ preserve =>
       if preserve then "report.pdf" else "report";
     version_str := fun _ => "report (v3)" |}.

Definition revert_view : DocumentVersionRevertView.View :=
  DocumentVersionRevertView.mkView plain_request some_version.

(** Requests that carry the parameter in the query string, and in the body. *)
Definition request_with (value : string) : HttpRequest :=
  mkRequest some_user [(key, value)] [].

Definition request_with_both (in_query in_body : string) : HttpRequest :=
  mkRequest some_user [(key, in_query)] [(key, in_body)].

(** A version model whose [revert] is interrupted from the keyboard. *)
Definition interrupted_revert : VersionMethods :=
  {| revert := fun _ _ => raise (mkExc KeyboardInterrupt "");
     get_rendered_string := fun _ _ => "";
     version_str := fun _ => "" |}.

(** *** Further sample data *)

(** A later review of the same document, and a table holding both. *)
Definition later_review : Review :=
  mkReview (Some 2) some_document other_user "agreed" (Some 15).

Definition world_with_two_reviews : World :=
  mkWorld (<[ 2 := later_review ]> {[ 1 := stored_review ]}) [] 20 [] ∅ [] [].

Definition Http404 : PyException :=
  mkExc (ExceptionClass "Http404") "No DocumentVersion matches the given query.".

(** A preview view whose inherited [dispatch] finds no version. *)
Definition missing_preview_view : DocumentVersionView.View :=
  DocumentVersionView.mkView some_version (fun _ => raise Http404).

Definition some_calls : list ReviewCall :=
  [CallSave unsaved_review; CallDelete stored_review; CallDelete unsaved_review].

(** * Properties *)

(** Unfolds the plumbing of [M] in the goal. *)
Ltac py_unfold :=
  unfold Py.bind, Py.ret, Py.raise, Py.modify, Py.gets, Py.try_except_Exception.

(** ** Request parameters *)

Section QueryDictFacts.
Implicit Types (q : QueryDict) (key : string) (d : PyVal).

Lemma getlist_nil_iff q key : getlist q key = [] <-> contains q key = false.
Proof.
  unfold getlist, contains.
  induction q as [|[k v] q IH]; simpl; [tauto|].
  destruct (String.eqb k key); simpl; [split; discriminate | exact IH].
Qed.

Lemma get_absent q key d : contains q key = false -> Django.get q key d = d.
Proof.
  intros Hc. apply getlist_nil_iff in Hc. unfold Django.get. now rewrite Hc.
Qed.

Lemma get_present q key d :
  contains q key = true ->
  exists s, Django.get q key d = PyStr s
            /\ forall other, List.last (getlist q key) other = s.
Proof.
  intros Hc. unfold Django.get.
  destruct (getlist q key) as [|x l] eqn:E.
  - apply getlist_nil_iff in E. congruence.
  - assert (Hne : x :: l <> []) by discriminate.
    destruct (exists_last Hne) as (l' & s & ->).
    exists s. rewrite rev_app_distr. simpl. split; [reflexivity|].
    intros other. apply last_last.
Qed.

(** A present key makes the default irrelevant. *)
Lemma get_present_default q key d d' :
  contains q key = true -> Django.get q key d = Django.get q key d'.
Proof.
  intros Hc. unfold Django.get.
  destruct (List.rev (getlist q key)) eqn:E; [|reflexivity].
  apply (f_equal (@List.rev _)) in E. rewrite rev_involutive in E. simpl in E.
  apply getlist_nil_iff in E. congruence.
Qed.

Lemma py_eq_str (v : PyVal) (s : string) : py_eq v (PyStr s) = true <-> v = PyStr s.
Proof.
  destruct v as [t|b|]; simpl; try (split; discriminate).
  rewrite String.eqb_eq. split; [now intros -> | now intros [= ->]].
Qed.

End QueryDictFacts.

(** ** The download view *)

Section DownloadView.
Import DocumentVersionDownloadView.
Context `{VersionMethods}.

(** C4.  The flag handed to [get_rendered_string] is [True] exactly when
    the submitted value is the string ["true"] or the string ["True"].
    Every other string gives [False], and so does a request that carries
    the parameter neither in its query string nor in its body. *)
Theorem preserve_extension_true_iff_literal (request : HttpRequest) :
  (preserve_extension request = true <->
     preserve_extension_param request = PyStr "true" \/
     preserve_extension_param request = PyStr "True")
  /\ (forall s, preserve_extension_param request = PyStr s ->
        s <> "true" -> s <> "True" -> preserve_extension request = false)
  /\ (contains (GET request) key = false ->
      contains (POST request) key = false ->
      preserve_extension request = false)
  /\ (forall item, get_item_filename request item
                   = get_rendered_string item (preserve_extension request)).
Proof.
  assert (Hiff : preserve_extension request = true <->
     preserve_extension_param request = PyStr "true" \/
     preserve_extension_param request = PyStr "True").
  { unfold preserve_extension. rewrite orb_true_iff, !py_eq_str. tauto. }
  repeat split; try apply Hiff.
  - intros s Hs Hn1 Hn2.
    apply not_true_is_false. intros E.
    apply Hiff in E. rewrite Hs in E. destruct E as [[= ->]|[= ->]]; congruence.
  - intros Hg Hp.
    apply not_true_is_false. intros E.
    apply Hiff in E. unfold preserve_extension_param in E.
    rewrite (get_absent _ _ _ Hg), (get_absent _ _ _ Hp) in E.
    destruct E; discriminate.
Qed.

(** C10.  When the query string carries the parameter, the value bound is
    the last one given there and the body plays no part: two requests that
    differ only in their bodies get the same flag and the same file name.
    The body's value is the one used only when the query string lacks the
    key. *)
Theorem query_string_takes_precedence (u : User) (query body : QueryDict) :
  (contains query key = true ->
     (exists s,
        preserve_extension_param (mkRequest u query body) = PyStr s
        /\ forall other, List.last (getlist query key) other = s)
     /\ forall body' item,
          preserve_extension (mkRequest u query body)
            = preserve_extension (mkRequest u query body')
          /\ get_item_filename (mkRequest u query body) item
            = get_item_filename (mkRequest u query body') item)
  /\ (contains query key = false ->
        preserve_extension_param (mkRequest u query body)
          = Django.get body key (PyBool false)).
Proof.
  split; intros Hq.
  - assert (Hp : forall b, preserve_extension_param (mkRequest u query b)
                           = Django.get query key PyNone).
    { intros b. unfold preserve_extension_param. simpl.
      now apply get_present_default. }
    split; [rewrite Hp; now apply get_present|].
    intros body' item. unfold get_item_filename, preserve_extension.
    now rewrite (Hp body), (Hp body').
  - unfold preserve_extension_param. simpl. now apply get_absent.
Qed.

End DownloadView.

Example preserve_extension_examples :
  let request v := mkRequest (mkUser 1 "jdoe" "") [(key, v)] [] in
  DocumentVersionDownloadView.preserve_extension (request "true") = true
  /\ DocumentVersionDownloadView.preserve_extension (request "True") = true
  /\ DocumentVersionDownloadView.preserve_extension (request "TRUE") = false
  /\ DocumentVersionDownloadView.preserve_extension (request "1") = false
  /\ DocumentVersionDownloadView.preserve_extension (request "") = false
  /\ DocumentVersionDownloadView.preserve_extension
       (mkRequest (mkUser 1 "jdoe" "") [] []) = false
  /\ DocumentVersionDownloadView.preserve_extension
       (mkRequest (mkUser 1 "jdoe" "") [(key, "false")] [(key, "true")]) = false
  /\ DocumentVersionDownloadView.preserve_extension
       (mkRequest (mkUser 1 "jdoe" "") [("compressed", "on")] [(key, "true")]) = true.
Proof. repeat split. Qed.

(** ** The version list *)

#[local] Instance newer_or_same_trans : Transitive newer_or_same.
Proof. unfold newer_or_same. intros a b c Hab Hbc. lia. Qed.

#[local] Instance newer_or_same_total : Total newer_or_same.
Proof. unfold newer_or_same. intros a b. lia. Qed.

Lemma order_by_minus_timestamp_sorted (rows : list DocumentVersion) :
  StronglySorted newer_or_same (order_by_minus_timestamp rows).
Proof. unfold order_by_minus_timestamp. apply StronglySorted_merge_sort; apply _. Qed.

Lemma order_by_minus_timestamp_perm (rows : list DocumentVersion) :
  Permutation (order_by_minus_timestamp rows) rows.
Proof. unfold order_by_minus_timestamp. apply merge_sort_Permutation. Qed.

Lemma versions_spec (d : Document) (w : World) (v : DocumentVersion) :
  In v (versions d w) <->
  In v (version_table w) /\ document_pk (version_document v) = document_pk d.
Proof. unfold versions. rewrite filter_In, Z.eqb_eq. tauto. Qed.

(** C7.  For every document the list handler returns exactly the versions
    of that document (each row as often as the table holds it), arranged so
    that no version comes before one with a later timestamp.  Producing
    the list also marks the document as recent for the requesting user. *)
Theorem version_list_newest_first (self : DocumentVersionListView.View) (w : World) :
  exists rows w',
    DocumentVersionListView.get_source_queryset self w = (Return rows, w')
    /\ Permutation rows (versions (DocumentVersionListView.external_object self) w)
    /\ StronglySorted (fun a b => timestamp b <= timestamp a) rows
    /\ (forall i j a b, rows !! i = Some a -> rows !! j = Some b ->
          (i < j)%nat -> timestamp b <= timestamp a)
    /\ (user_pk (request_user (DocumentVersionListView.request self)),
        document_pk (DocumentVersionListView.external_object self))
         ∈ recent_documents w'.
Proof.
  set (d := DocumentVersionListView.external_object self).
  set (w1 := set_recent_documents
     ({[ (user_pk (request_user (DocumentVersionListView.request self)),
          document_pk d) ]} ∪ recent_documents w) w).
  exists (order_by_minus_timestamp (versions d w1)), w1.
  assert (Hv : versions d w1 = versions d w) by reflexivity.
  assert (Hs := order_by_minus_timestamp_sorted (versions d w)).
  repeat split.
  - rewrite Hv. apply order_by_minus_timestamp_perm.
  - rewrite Hv. exact Hs.
  - rewrite Hv. intros i j a b Hi Hj Hij.
    revert i j a b Hi Hj Hij.
    induction Hs as [|x l Hl IH Hx]; intros i j a b Hi Hj Hij.
    + now rewrite lookup_nil in Hi.
    + destruct j as [|j]; [lia|]. simpl in Hj.
      destruct i as [|i]; simpl in Hi.
      * injection Hi as <-. rewrite Forall_forall in Hx.
        apply (Hx b). eapply list_elem_of_lookup_2, Hj.
      * apply (IH i j a b Hi Hj). lia.
  - subst w1. simpl. set_solver.
Qed.

Example version_list_example :
  let other := mkVersion 9 (mkDocument 8 "minutes") 70 in
  let w := mkWorld ∅ [older_version; other; some_version] 0 [] ∅ [] [] in
  let self := DocumentVersionListView.mkView plain_request some_document in
  fst (DocumentVersionListView.get_source_queryset self w)
  = Return [some_version; older_version].
Proof. reflexivity. Qed.

(** ** The revert view *)

Section RevertView.
Import DocumentVersionRevertView.
Context `{VersionMethods}.

(** C1, as the code has it.  Whatever [revert] does: when it returns, the
    action returns normally and a success notification is added; when it
    raises an instance of [Exception], the action still returns normally
    and an error notification ending in the exception's text is added;
    when it raises something that is not an instance of [Exception]
    ([SystemExit], [KeyboardInterrupt], [GeneratorExit]), the action
    raises it in turn and no notification is added. *)
Theorem view_action_reports_revert_outcome (self : View) (w : World) :
  match revert (get_object self) (request_user (request self)) w with
  | (Return _, w1) =>
      view_action self w = (Return tt, notify success_notice w1)
  | (Raise e, w1) =>
      if isinstance_Exception e
      then view_action self w = (Return tt, notify (error_notice e) w1)
      else view_action self w = (Raise e, w1)
  end.
Proof.
  unfold view_action. py_unfold.
  destruct (revert _ _ w) as [[[]|e] w1]; [reflexivity|].
  destruct (isinstance_Exception e); reflexivity.
Qed.

End RevertView.

(** C1, as stated, fails: an exception outside the [Exception] hierarchy
    leaves the handler, and no error notification is shown. *)
Lemma view_action_lets_keyboard_interrupt_through :
  let result :=
    @DocumentVersionRevertView.view_action interrupted_revert revert_view
      empty_world in
  fst result = Raise (mkExc KeyboardInterrupt "")
  /\ message_storage (snd result) = [].
Proof. split; reflexivity. Qed.

(** ** Bulk page-count recalculation *)

Section UpdatePageCountView.
Import DocumentVersionUpdatePageCountView.
Context `{VersionMethods}.

Lemma set_task_queue_twice (l l' : list Job) (w : World) :
  set_task_queue l' (set_task_queue l w) = set_task_queue l' w.
Proof. reflexivity. Qed.

Lemma view_action_queue (object_list : list DocumentVersion) (w : World) :
  view_action object_list w
  = (Return tt, set_task_queue (task_queue w ++ List.map job_for object_list) w).
Proof.
  unfold view_action. revert w.
  induction object_list as [|v rest IH]; intros w.
  - simpl. unfold ret. rewrite app_nil_r. now destruct w.
  - cbn [for_each List.map]. unfold bind at 1.
    unfold object_action at 1, apply_async, modify.
    rewrite IH, set_task_queue_twice. cbn [task_queue set_task_queue].
    now rewrite <- app_assoc.
Qed.

(** C5.  Running the action over a selection queues one job per selected
    version, in order, each for [task_update_page_count] with the single
    keyword argument [version_id] set to that version's primary key, and
    nothing else is queued.  The confirmation title names the version when
    exactly one is selected and is the plural question otherwise. *)
Theorem bulk_recalculation_queues_one_job_each (object_list : list DocumentVersion)
    (w : World) :
  (exists w',
     view_action object_list w = (Return tt, w')
     /\ task_queue w' = (task_queue w ++ List.map job_for object_list)%list
     /\ List.length (task_queue w') = (List.length (task_queue w) + List.length object_list)%nat
     /\ forall i v, object_list !! i = Some v ->
          task_queue w' !! (List.length (task_queue w) + i)%nat
          = Some (mkJob task_update_page_count [("version_id", version_pk v)]))
  /\ (forall v, object_list = [v] ->
        get_extra_context object_list !! "title" = Some (CtxStr (title_naming v))
        /\ get_extra_context object_list !! "object" = Some (CtxVersion v))
  /\ (List.length object_list <> 1%nat ->
        get_extra_context object_list !! "title" = Some (CtxStr plural_title)
        /\ get_extra_context object_list !! "object" = None).
Proof.
  split; [|split].
  - eexists. split; [apply view_action_queue|].
    cbn [task_queue set_task_queue].
    split; [reflexivity|]. split.
    + now rewrite length_app, length_map.
    + intros i v Hi. rewrite lookup_app_r by lia.
      replace (List.length (task_queue w) + i - List.length (task_queue w))%nat with i by lia.
      rewrite list_lookup_fmap. now rewrite Hi.
  - intros v ->. unfold get_extra_context, count. simpl.
    split; [now rewrite lookup_insert_eq|].
    rewrite lookup_insert_ne by discriminate. now rewrite lookup_insert_eq.
  - intros Hn. unfold get_extra_context, count, ungettext.
    destruct (Z.eqb_spec (Z.of_nat (List.length object_list)) 1) as [E|E]; [lia|].
    split; [now rewrite lookup_singleton_eq|].
    now rewrite lookup_singleton_ne.
Qed.

End UpdatePageCountView.

(** ** The preview view *)

Section PreviewView.
Import DocumentVersionView.

(** C9.  Whenever the inherited [dispatch] serves the request, the view
    returns its response unchanged, the pair of the requesting user and the
    parent document is among the recent documents, and the audit log is the
    one the inherited [dispatch] left plus exactly one entry: a document
    viewed event with the requesting user as actor and the parent document
    as target.  Everything else is as the inherited [dispatch] left it. *)
Theorem dispatch_marks_recent_and_logs_view (self : View) (request : HttpRequest)
    (w w1 : World) (response : HttpResponse) :
  super_dispatch self request w = (Return response, w1) ->
  let d := version_document (get_object self) in
  let u := request_user request in
  exists w2,
    dispatch self request w = (Return response, w2)
    /\ (user_pk u, document_pk d) ∈ recent_documents w2
    /\ recent_documents w2 = {[ (user_pk u, document_pk d) ]} ∪ recent_documents w1
    /\ actions w2 = (actions w1 ++ [viewed u d])%list
    /\ review_table w2 = review_table w1
    /\ version_table w2 = version_table w1
    /\ message_storage w2 = message_storage w1
    /\ task_queue w2 = task_queue w1.
Proof.
  intros Hsuper d u. unfold dispatch. py_unfold. rewrite Hsuper.
  eexists. split; [reflexivity|]. simpl.
  repeat split. set_solver.
Qed.

(** When the inherited [dispatch] raises, so does the view, and it adds
    nothing of its own. *)
Lemma dispatch_propagates (self : View) (request : HttpRequest)
    (w w1 : World) (e : PyException) :
  super_dispatch self request w = (Raise e, w1) ->
  dispatch self request w = (Raise e, w1).
Proof. intros Hsuper. unfold dispatch. py_unfold. now rewrite Hsuper. Qed.

End PreviewView.

(** ** The review model *)

Section ReviewModel.
Import Reviews.

(** C6.  The label is the user's full name when that is a non-empty
    string, and the user's [username] when the full name is empty. *)
Theorem get_user_label_full_name_or_username (self : Review) :
  (full_name (user self) <> "" /\ get_user_label self = full_name (user self))
  \/ (full_name (user self) = "" /\ get_user_label self = username (user self)).
Proof.
  unfold get_user_label.
  destruct (full_name (user self)) as [|c s]; simpl; [right | left]; easy.
Qed.

Example get_user_label_examples :
  let review u := mkReview None some_document u "fine" None in
  get_user_label (review (mkUser 1 "jane" "Jane Doe")) = "Jane Doe"
  /\ get_user_label (review (mkUser 2 "jdoe" "")) = "jdoe".
Proof. split; reflexivity. Qed.

Lemma row_key_free (self : Review) (w : World) :
  row_exists self w = false -> review_table w !! row_key self w = None.
Proof.
  unfold row_exists, row_key. destruct (pk self) as [k|]; intros Hr.
  - apply bool_decide_eq_false in Hr. now apply eq_None_not_Some.
  - apply not_elem_of_dom. apply is_fresh.
Qed.

Lemma row_key_taken (self : Review) (w : World) :
  row_exists self w = true ->
  pk self = Some (row_key self w) /\ is_Some (review_table w !! row_key self w).
Proof.
  unfold row_exists, row_key. destruct (pk self) as [k|]; [|discriminate].
  intros Hr. now apply bool_decide_eq_true in Hr.
Qed.

(** What [Model_save] does, by cases on the value for [submit_date]. *)
Lemma Model_save_unfold (self : Review) (w : World) :
  Model_save self w =
  match pre_save field_submit_date (negb (row_exists self w)) (clock w)
                 (submit_date self) with
  | None => (Raise IntegrityError, w)
  | Some d =>
      let saved := mkReview (Some (row_key self w)) (document self) (user self)
                            (addlcomments self) (Some d) in
      (Return saved,
       set_review_table (<[row_key self w := saved]> (review_table w)) w)
  end.
Proof. reflexivity. Qed.

Lemma save_unfold (self : Review) (w : World) :
  save self w =
  match Model_save self w with
  | (Return saved, w1) =>
      (Return saved,
       log (mkAction
              (if row_exists self w then event_document_review_edited
               else event_document_review_created)
              (if row_exists self w then None else Some (ObjUser (user saved)))
              (Some (ObjDocument (document saved)))
              (Some (ObjReview saved))) w1)
  | (Raise e, w1) => (Raise e, w1)
  end.
Proof.
  unfold save, method_event_save. py_unfold. fold (row_exists self w).
  destruct (Model_save self w) as [[saved|e] w1]; [|reflexivity].
  destruct (row_exists self w); reflexivity.
Qed.

(** The two class attributes name the same event; [save] reads neither,
    the events it emits are named by its decorator. *)
Remark event_attributes_name_one_event :
  _event_edited_event = _event_created_event
  /\ ea_event save_edited = event_document_review_edited
  /\ ea_event save_created = event_document_review_created.
Proof. repeat split. Qed.

(** C2.  A save that inserts a row (the instance has no primary key, or
    none with a row) returns the instance as saved and adds one entry to
    the audit log: review created, actor the review's user, action object
    the review's document, target the saved review.  A save that updates
    the row of the instance adds one entry as well: review edited, action
    object the review's document, target the saved review. *)
Theorem save_emits_created_or_edited (self : Review) (w : World) :
  (row_exists self w = false ->
     exists k saved,
       review_table w !! k = None /\ pk saved = Some k
       /\ user saved = user self /\ document saved = document self
       /\ save self w =
          (Return saved,
           log (mkAction event_document_review_created
                  (Some (ObjUser (user self)))
                  (Some (ObjDocument (document self)))
                  (Some (ObjReview saved)))
               (set_review_table (<[k := saved]> (review_table w)) w)))
  /\ (row_exists self w = true ->
      forall d, submit_date self = Some d ->
        exists k saved,
          pk self = Some k /\ is_Some (review_table w !! k) /\ pk saved = Some k
          /\ user saved = user self /\ document saved = document self
          /\ save self w =
             (Return saved,
              log (mkAction event_document_review_edited
                     None
                     (Some (ObjDocument (document self)))
                     (Some (ObjReview saved)))
                  (set_review_table (<[k := saved]> (review_table w)) w))).
Proof.
  split; intros Hr.
  - exists (row_key self w),
      (mkReview (Some (row_key self w)) (document self) (user self)
                (addlcomments self) (Some (clock w))).
    split; [now apply row_key_free|].
    rewrite save_unfold, Model_save_unfold, Hr. unfold pre_save. simpl.
    repeat split; reflexivity.
  - intros d Hd.
    exists (row_key self w),
      (mkReview (Some (row_key self w)) (document self) (user self)
                (addlcomments self) (Some d)).
    destruct (row_key_taken _ _ Hr) as [Hpk Hrow].
    split; [exact Hpk|]. split; [exact Hrow|].
    rewrite save_unfold, Model_save_unfold, Hr, Hd. unfold pre_save. simpl.
    repeat split; reflexivity.
Qed.

(** A save whose underlying [Model.save] fails adds nothing to the log. *)
Lemma save_failure_is_silent (self : Review) (w w1 : World) (e : PyException) :
  Model_save self w = (Raise e, w1) -> save self w = (Raise e, w1) /\ w1 = w.
Proof.
  intros Hsave. rewrite save_unfold, Hsave. split; [reflexivity|].
  rewrite Model_save_unfold in Hsave.
  destruct (pre_save _ _ _ _); [discriminate|]. now injection Hsave.
Qed.

Lemma delete_unfold (self : Review) (w : World) :
  delete self w =
  match Model_delete self w with
  | (Return n, w1) => (Return n, log (deleted_entry self) w1)
  | (Raise e, w1) => (Raise e, w1)
  end.
Proof.
  unfold delete, method_event_after. py_unfold.
  destruct (Model_delete self w) as [[n|e] w1]; reflexivity.
Qed.

(** C3, as the code has it.  When the underlying delete returns, the
    wrapped delete returns the same and the audit log grows by exactly one
    entry: review deleted, target the review's document.  When the
    underlying delete raises, the wrapped delete raises the same, the log
    is as before and no row is gone.  So a row is removed only by a wrapped
    delete that returns.  An instance with a primary key is always deleted;
    one without is always refused. *)
Theorem delete_emits_one_event_after_success (self : Review) (w : World) :
  match Model_delete self w with
  | (Return n, w1) =>
      delete self w = (Return n, log (deleted_entry self) w1)
      /\ actions (log (deleted_entry self) w1)
         = (actions w ++ [deleted_entry self])%list
  | (Raise e, w1) =>
      delete self w = (Raise e, w1) /\ w1 = w
  end
  /\ (forall r w', delete self w = (r, w') ->
        review_table w' <> review_table w -> exists n, r = Return n)
  /\ (forall k, pk self = Some k ->
        exists n w',
          delete self w = (Return n, w')
          /\ review_table w' = base.delete k (review_table w)
          /\ review_table w' !! k = None
          /\ actions w' = (actions w ++ [deleted_entry self])%list)
  /\ (pk self = None -> delete self w = (Raise AssertionError, w)).
Proof.
  rewrite delete_unfold. unfold Model_delete.
  destruct (pk self) as [k|]; simpl.
  - repeat split.
    + intros r w' [= <- <-] _. eauto.
    + intros k' [= <-]. do 2 eexists. split; [reflexivity|]. simpl.
      repeat split. apply lookup_delete_eq.
    + discriminate.
  - repeat split.
    + intros r w' [= <- <-] Hne. now destruct Hne.
    + discriminate.
Qed.

(** C3, as stated, fails: deleting an instance that has no row is refused
    by [Model.delete], and then no review deleted event is emitted. *)
Lemma delete_of_unsaved_review_emits_nothing :
  let result := delete unsaved_review empty_world in
  fst result = Raise AssertionError
  /\ actions (snd result) = []
  /\ review_table (snd result) = review_table empty_world.
Proof. repeat split. Qed.

(** *** Rows as [Model_save] writes them *)

Lemma well_formed_empty_world : well_formed empty_world.
Proof. intros k row Hrow. simpl in Hrow. now rewrite lookup_empty in Hrow. Qed.

Lemma save_keeps_well_formed (self : Review) (w w' : World) (r : Outcome Review) :
  well_formed w -> save self w = (r, w') -> well_formed w'.
Proof.
  intros Hwf. rewrite save_unfold, Model_save_unfold.
  destruct (pre_save _ _ _ _) as [d|]; simpl.
  - intros [= _ <-] k row. simpl. rewrite lookup_insert_Some.
    intros [[<- <-]|[_ Hrow]]; [simpl; eauto | now apply Hwf].
  - now intros [= _ <-].
Qed.

Lemma delete_keeps_well_formed (self : Review) (w w' : World) (r : Outcome Z) :
  well_formed w -> delete self w = (r, w') -> well_formed w'.
Proof.
  intros Hwf. rewrite delete_unfold. unfold Model_delete.
  destruct (pk self) as [k0|]; simpl.
  - intros [= _ <-] k row. simpl. rewrite lookup_delete_Some.
    intros [_ Hrow]. now apply Hwf.
  - now intros [= _ <-].
Qed.

(** The fields a model form can write. *)
Lemma editable_fields :
  is_editable field_document = true /\ is_editable field_addlcomments = true
  /\ is_editable field_user = false /\ is_editable field_submit_date = false.
Proof. repeat split. Qed.

(** C8.  In a table of well-formed rows: saving a new instance stores it
    with the current time as submission date, whatever date the instance
    held, and with the user it was given.  Editing a stored review through
    a form and saving it leaves the submission date and the user of the row
    as they were, whatever the form submitted for them; the comment text is
    the submitted one. *)
Theorem submit_date_and_user_fixed_at_creation (w : World) :
  well_formed w ->
  (forall self, pk self = None ->
     exists k saved w',
       save self w = (Return saved, w') /\ pk saved = Some k
       /\ review_table w !! k = None /\ review_table w' !! k = Some saved
       /\ submit_date saved = Some (clock w) /\ user saved = user self)
  /\ (forall k row cd, review_table w !! k = Some row ->
        exists saved w',
          save (construct_instance cd row) w = (Return saved, w')
          /\ review_table w' !! k = Some saved
          /\ submit_date saved = submit_date row
          /\ user saved = user row
          /\ addlcomments saved = default (addlcomments row) (cd_addlcomments cd)).
Proof.
  intros Hwf. split.
  - intros self Hpk.
    assert (Hr : row_exists self w = false) by (unfold row_exists; now rewrite Hpk).
    exists (row_key self w). do 2 eexists.
    rewrite save_unfold, Model_save_unfold, Hr. unfold pre_save. simpl.
    split; [reflexivity|]. simpl.
    split; [reflexivity|]. split; [now apply row_key_free|].
    split; [apply lookup_insert_eq|]. split; reflexivity.
  - intros k row cd Hrow.
    destruct (Hwf k row Hrow) as [Hpk [d Hd]].
    set (self := construct_instance cd row).
    assert (Hr : row_exists self w = true).
    { unfold row_exists, self. simpl. rewrite Hpk.
      apply bool_decide_eq_true. rewrite Hrow. eauto. }
    assert (Hk : row_key self w = k).
    { unfold row_key, self. simpl. now rewrite Hpk. }
    assert (Hdate : submit_date self = Some d).
    { unfold self. simpl. destruct (cd_submit_date cd); exact Hd. }
    do 2 eexists.
    rewrite save_unfold, Model_save_unfold, Hr, Hk, Hdate. unfold pre_save. simpl.
    split; [reflexivity|]. simpl.
    split; [apply lookup_insert_eq|]. simpl.
    split; [now rewrite Hd|].
    split; [now destruct (cd_user cd)|].
    now destruct (cd_addlcomments cd).
Qed.

End ReviewModel.

(** ** The properties at the sample data *)

Section Witnesses.
Import Reviews.

Lemma well_formed_world_with_review : well_formed world_with_review.
Proof.
  intros k row Hrow. simpl in Hrow.
  apply lookup_singleton_Some in Hrow as [<- <-]. split; [reflexivity|].
  simpl. eauto.
Qed.

Lemma stored_review_has_row : row_exists stored_review world_with_review = true.
Proof.
  unfold row_exists. simpl. apply bool_decide_eq_true.
  rewrite lookup_singleton_eq. eauto.
Qed.

Lemma save_emits_created_or_edited_witness :
  (exists k saved,
     pk saved = Some k
     /\ save unsaved_review empty_world =
        (Return saved,
         log (mkAction event_document_review_created
                (Some (ObjUser some_user)) (Some (ObjDocument some_document))
                (Some (ObjReview saved)))
             (set_review_table (<[k := saved]> ∅) empty_world)))
  /\ (exists saved,
        pk saved = Some 1
        /\ save stored_review world_with_review =
           (Return saved,
            log (mkAction event_document_review_edited
                   None (Some (ObjDocument some_document))
                   (Some (ObjReview saved)))
                (set_review_table (<[1 := saved]> {[ 1 := stored_review ]})
                                  world_with_review))).
Proof.
  split.
  - destruct (proj1 (save_emits_created_or_edited unsaved_review empty_world)
                eq_refl) as (k & saved & _ & Hpk & _ & _ & Hsave).
    exists k, saved. split; [exact Hpk | exact Hsave].
  - destruct (proj2 (save_emits_created_or_edited stored_review world_with_review)
                stored_review_has_row 10 eq_refl)
      as (k & saved & Hk & _ & Hpk & _ & _ & Hsave).
    injection Hk as <-.
    exists saved. split; [exact Hpk | exact Hsave].
Defined.

Lemma delete_emits_one_event_after_success_witness :
  exists n w',
    delete stored_review world_with_review = (Return n, w')
    /\ review_table w' !! 1 = None
    /\ actions w' = [deleted_entry stored_review].
Proof.
  destruct (proj1 (proj2 (proj2
              (delete_emits_one_event_after_success stored_review world_with_review)))
              1 eq_refl) as (n & w' & Hdel & _ & Hgone & Hlog).
  exists n, w'. split; [exact Hdel|]. split; [exact Hgone | exact Hlog].
Defined.

Lemma submit_date_and_user_fixed_at_creation_witness :
  well_formed world_with_review
  /\ (exists k saved w',
        save unsaved_review world_with_review = (Return saved, w')
        /\ pk saved = Some k
        /\ review_table w' !! k = Some saved
        /\ submit_date saved = Some 20 /\ user saved = some_user)
  /\ (exists saved w',
        save (construct_instance tampering_form stored_review) world_with_review
        = (Return saved, w')
        /\ review_table w' !! 1 = Some saved
        /\ submit_date saved = Some 10
        /\ user saved = some_user
        /\ addlcomments saved = "second thoughts").
Proof.
  split; [exact well_formed_world_with_review|].
  destruct (submit_date_and_user_fixed_at_creation world_with_review
              well_formed_world_with_review) as [Hnew Hedit].
  split.
  - destruct (Hnew unsaved_review eq_refl)
      as (k & saved & w' & Hsave & Hpk & _ & Hrow & Hdate & Huser).
    exists k, saved, w'. repeat split; assumption.
  - destruct (Hedit 1 stored_review tampering_form (lookup_singleton_eq _ _))
      as (saved & w' & Hsave & Hrow & Hdate & Huser & Htext).
    exists saved, w'. repeat split; assumption.
Defined.

Lemma dispatch_marks_recent_and_logs_view_witness :
  DocumentVersionView.super_dispatch preview_view plain_request empty_world
  = (Return preview_page, empty_world)
  /\ exists w2,
       DocumentVersionView.dispatch preview_view plain_request empty_world
       = (Return preview_page, w2)
       /\ (1, 7) ∈ recent_documents w2
       /\ actions w2 = [viewed some_user some_document].
Proof.
  split; [reflexivity|].
  destruct (dispatch_marks_recent_and_logs_view preview_view plain_request
              empty_world empty_world preview_page eq_refl)
    as (w2 & Hd & Hin & _ & Hlog & _).
  exists w2. split; [exact Hd|]. split; [exact Hin | exact Hlog].
Defined.

Lemma view_action_reports_revert_outcome_witness :
  @DocumentVersionRevertView.view_action failing_revert revert_view empty_world
  = (Return tt,
     set_message_storage
       [(ERROR, "Error reverting document version; no such file")] empty_world).
Proof.
  exact (@view_action_reports_revert_outcome failing_revert revert_view empty_world).
Defined.

Lemma preserve_extension_true_iff_literal_witness :
  DocumentVersionDownloadView.preserve_extension (request_with "True") = true
  /\ DocumentVersionDownloadView.preserve_extension (request_with "TRUE") = false
  /\ DocumentVersionDownloadView.preserve_extension plain_request = false
  /\ @DocumentVersionDownloadView.get_item_filename failing_revert
       (request_with "true") some_version = "report.pdf".
Proof.
  pose proof (@preserve_extension_true_iff_literal failing_revert) as P.
  split; [|split; [|split]].
  - apply (proj1 (P (request_with "True"))). right. reflexivity.
  - apply (proj1 (proj2 (P (request_with "TRUE"))) "TRUE");
      [reflexivity | discriminate | discriminate].
  - apply (proj1 (proj2 (proj2 (P plain_request)))); reflexivity.
  - rewrite (proj2 (proj2 (proj2 (P (request_with "true"))))).
    reflexivity.
Defined.

Lemma query_string_takes_precedence_witness :
  DocumentVersionDownloadView.preserve_extension_param
    (request_with_both "false" "true") = PyStr "false"
  /\ DocumentVersionDownloadView.preserve_extension
       (request_with_both "false" "true")
     = DocumentVersionDownloadView.preserve_extension (request_with "false")
  /\ DocumentVersionDownloadView.preserve_extension_param
       (mkRequest some_user [("compressed", "on")] [(key, "true")])
     = PyStr "true".
Proof.
  destruct (proj1 (@query_string_takes_precedence failing_revert some_user
                     [(key, "false")] [(key, "true")]) eq_refl)
    as [(s & Hparam & Hlast) Hsame].
  pose proof (Hlast "") as E. cbn in E. subst s.
  split; [exact Hparam|]. split.
  - exact (proj1 (Hsame [] some_version)).
  - exact (proj2 (@query_string_takes_precedence failing_revert some_user
                    [("compressed", "on")] [(key, "true")]) eq_refl).
Defined.

Lemma bulk_recalculation_queues_one_job_each_witness :
  (exists w',
     DocumentVersionUpdatePageCountView.view_action
       [some_version; older_version] empty_world = (Return tt, w')
     /\ task_queue w' =
        [mkJob task_update_page_count [("version_id", 3)];
         mkJob task_update_page_count [("version_id", 2)]])
  /\ @DocumentVersionUpdatePageCountView.get_extra_context failing_revert
       [some_version] !! "title"
     = Some (CtxStr
         "Recalculate the page count of the document version: report (v3)?")
  /\ @DocumentVersionUpdatePageCountView.get_extra_context failing_revert
       [some_version; older_version] !! "title"
     = Some (CtxStr plural_title)
  /\ @DocumentVersionUpdatePageCountView.get_extra_context failing_revert
       [] !! "title"
     = Some (CtxStr plural_title).
Proof.
  pose proof (@bulk_recalculation_queues_one_job_each failing_revert) as P.
  split; [|split; [|split]].
  - destruct (proj1 (P [some_version; older_version] empty_world))
      as (w' & Hrun & Hqueue & _).
    exists w'. split; [exact Hrun | exact Hqueue].
  - exact (proj1 (proj1 (proj2 (P [some_version] empty_world))
                    some_version eq_refl)).
  - apply (proj2 (proj2 (P [some_version; older_version] empty_world))).
    discriminate.
  - apply (proj2 (proj2 (P [] empty_world))). discriminate.
Defined.

End Witnesses.

(** * Further properties *)

(** ** Saving and deleting reviews *)

Section ReviewCalls.
Import Reviews.

(** X1.  A save writes the row of one key only: every other row of the
    table is as before, and so are the version table, the clock, the
    recent documents, the notifications and the task queue. *)
Theorem save_leaves_other_rows (self : Review) (w : World) (k : Z) :
  k <> row_key self w ->
  review_table (snd (save self w)) !! k = review_table w !! k
  /\ same_elsewhere w (snd (save self w)).
Proof.
  intros Hk. rewrite save_unfold, Model_save_unfold.
  destruct (pre_save _ _ _ _) as [d|]; simpl.
  - split; [now apply lookup_insert_ne | repeat split].
  - split; [reflexivity | repeat split].
Qed.


(** X3.  Saving again the instance a save returned is an edit, never a
    second creation: it returns the same instance, leaves the table as the
    first save left it (submission date included) and adds one edited
    entry. *)
Theorem second_save_is_an_edit (self saved : Review) (w w1 : World) :
  save self w = (Return saved, w1) ->
  exists w2,
    save saved w1 = (Return saved, w2)
    /\ review_table w2 = review_table w1
    /\ actions w2 = (actions w1 ++ [edited_entry saved])%list.
Proof.
  rewrite save_unfold, Model_save_unfold.
  destruct (pre_save _ _ _ _) as [d|]; simpl; [|discriminate].
  intros [= <- <-].
  set (k := row_key self w).
  set (saved := mkReview (Some k) (document self) (user self)
                         (addlcomments self) (Some d)).
  assert (Hr : forall a,
            row_exists saved
              (log a (set_review_table (<[k := saved]> (review_table w)) w))
            = true).
  { intros a. unfold row_exists. simpl. rewrite lookup_insert_eq.
    apply bool_decide_eq_true. eauto. }
  eexists. rewrite save_unfold, Model_save_unfold.
  rewrite Hr. unfold pre_save. simpl.
  split; [reflexivity|]. simpl. split; [|reflexivity].
  apply insert_insert_eq.
Qed.

(** X4.  Deleting an instance whose primary key has no row (a stale copy
    of a review already deleted) does not fail: it removes nothing,
    returns a count of zero, and still adds a deleted entry to the audit
    log. *)
Theorem delete_without_row_still_logs (self : Review) (k : Z) (w : World) :
  pk self = Some k ->
  review_table w !! k = None ->
  exists w',
    delete self w = (Return 0, w')
    /\ review_table w' = review_table w
    /\ actions w' = (actions w ++ [deleted_entry self])%list.
Proof.
  intros Hpk Hnone. eexists.
  rewrite delete_unfold. unfold Model_delete. rewrite Hpk, Hnone.
  rewrite bool_decide_eq_false_2 by (intros [? ?]; discriminate).
  split; [reflexivity|]. simpl. split; [now apply delete_id | reflexivity].
Qed.

Lemma call_keeps_well_formed (c : ReviewCall) (w : World) :
  well_formed w -> well_formed (call c w).
Proof.
  intros Hwf. destruct c as [self|self]; simpl.
  - eapply save_keeps_well_formed; [exact Hwf | apply surjective_pairing].
  - eapply delete_keeps_well_formed; [exact Hwf | apply surjective_pairing].
Qed.

(** X5.  Whatever calls to [save] and [delete] are made, in whatever order
    and whether they return or raise, every row of the table stays under
    its own primary key and keeps a submission date. *)
Theorem calls_keep_well_formed (cs : list ReviewCall) (w : World) :
  well_formed w -> well_formed (calls cs w).
Proof.
  unfold calls. revert w.
  induction cs as [|c cs IH]; intros w Hwf; simpl; [exact Hwf|].
  apply IH. now apply call_keeps_well_formed.
Qed.



End ReviewCalls.

(** ** The views *)

(** Marking a pair that is already marked changes nothing. *)
Lemma mark_twice (p : Z * Z) (marks : gset (Z * Z)) :
  {[ p ]} ∪ ({[ p ]} ∪ marks) = {[ p ]} ∪ marks.
Proof. now rewrite (assoc_L (∪)), union_idemp_L. Qed.

Section ViewCalls.
Context `{VersionMethods} `{DocumentMethods}.

(** X7.  A preview request the inherited [dispatch] refuses (it raises,
    as for a missing version or a denied permission) is not recorded: the
    view raises the same exception, and the audit log and the recent
    documents are as the inherited [dispatch] left them. *)
Theorem failed_preview_leaves_no_trace (self : DocumentVersionView.View)
    (request : HttpRequest) (w w1 : World) (e : PyException) :
  DocumentVersionView.super_dispatch self request w = (Raise e, w1) ->
  exists w',
    DocumentVersionView.dispatch self request w = (Raise e, w')
    /\ actions w' = actions w1
    /\ recent_documents w' = recent_documents w1.
Proof.
  intros Hsuper. exists w1.
  split; [now apply dispatch_propagates | split; reflexivity].
Qed.

(** X8.  Whatever [revert] does, the revert action never raises an
    instance of [Exception]: if it raises at all, the exception is one
    that [revert] raised and that is outside the [Exception] hierarchy. *)
Theorem view_action_raises_no_Exception (self : DocumentVersionRevertView.View)
    (w w' : World) (e : PyException) :
  DocumentVersionRevertView.view_action self w = (Raise e, w') ->
  isinstance_Exception e = false
  /\ revert (DocumentVersionRevertView.get_object self)
            (request_user (DocumentVersionRevertView.request self)) w
     = (Raise e, w').
Proof.
  unfold DocumentVersionRevertView.view_action. py_unfold.
  destruct (revert _ _ w) as [[[]|e0] w0]; [discriminate|].
  destruct (isinstance_Exception e0) eqn:E; [discriminate|].
  intros [= <- <-]. split; [exact E | reflexivity].
Qed.



(** X10.  Building the list page marks the document as recent for the
    requesting user and does nothing else to the store: the context, the
    queryset, and both one after the other each leave the store exactly as
    a single [get_document] does, with the audit log untouched.  The
    context holds the document under ['object'] and names it in the
    title. *)
Theorem list_page_marks_once (self : DocumentVersionListView.View) (w : World) :
  let marked := snd (DocumentVersionListView.get_document self w) in
  let d := DocumentVersionListView.external_object self in
  snd (ListViewContext.get_extra_context self w) = marked
  /\ snd (DocumentVersionListView.get_source_queryset self w) = marked
  /\ snd (DocumentVersionListView.get_source_queryset self
            (snd (ListViewContext.get_extra_context self w))) = marked
  /\ actions marked = actions w
  /\ (exists context,
        fst (ListViewContext.get_extra_context self w) = Return context
        /\ context !! "object" = Some (TplDocument d)
        /\ context !! "title"
           = Some (TplStr ("Versions of document: " +:+ document_str d))).
Proof.
  intros marked d. subst marked.
  unfold ListViewContext.get_extra_context,
    DocumentVersionListView.get_source_queryset,
    DocumentVersionListView.get_document,
    add_as_recent_document_for_user.
  py_unfold. simpl.
  unfold set_recent_documents. simpl. rewrite !mark_twice.
  repeat split.
  eexists. split; [reflexivity|]. split.
  - now rewrite !lookup_insert_ne, lookup_insert_eq by discriminate.
  - now rewrite !lookup_insert_ne, lookup_insert_eq by discriminate.
Qed.

End ViewCalls.

(** ** The default ordering of reviews *)

Section ReviewOrdering.
Import Reviews ReviewManager.

#[local] Instance later_or_same_trans : Transitive later_or_same.
Proof. unfold later_or_same. intros a b c Hab Hbc. lia. Qed.

#[local] Instance later_or_same_total : Total later_or_same.
Proof. unfold later_or_same. intros a b. lia. Qed.

Lemma all_elem_of (w : World) (r : Review) :
  r ∈ all w <-> exists k, review_table w !! k = Some r.
Proof.
  unfold all, rows. rewrite merge_sort_Permutation, list_elem_of_fmap. split.
  - intros ([k r'] & -> & Hin). exists k. now apply elem_of_map_to_list.
  - intros [k Hk]. exists (k, r). split; [reflexivity|].
    now apply elem_of_map_to_list.
Qed.

Lemma all_sorted (w : World) : StronglySorted later_or_same (all w).
Proof. unfold all. apply StronglySorted_merge_sort; apply _. Qed.

(** The head of the listing is a stored row that no stored row is later
    than; the listing is empty only for an empty table. *)
Lemma all_head (w : World) :
  match all w with
  | [] => review_table w = ∅
  | r :: _ =>
      (exists k, review_table w !! k = Some r)
      /\ forall k' r', review_table w !! k' = Some r' -> submitted r' <= submitted r
  end.
Proof.
  pose proof (all_sorted w) as Hs. pose proof (all_elem_of w) as Hin.
  destruct (all w) as [|r rest] eqn:E.
  - unfold all in E.
    assert (Hrows : rows w = []).
    { apply Permutation_nil_r. rewrite <- (merge_sort_Permutation later_or_same).
      now rewrite E. }
    unfold rows in Hrows. apply fmap_nil_inv in Hrows.
    now apply map_to_list_empty_iff.
  - split; [apply Hin; left|].
    intros k' r' Hk'.
    assert (Hr' : r' ∈ r :: rest) by (apply Hin; eauto).
    apply StronglySorted_inv in Hs as [_ Hall].
    apply elem_of_cons in Hr' as [->|Hr']; [unfold submitted; lia|].
    rewrite Forall_forall in Hall. exact (Hall r' Hr').
Qed.

(** X11.  [Review.objects.all()] lists every stored review, each once, and
    newest first: no review is listed before one submitted later. *)
Theorem all_lists_every_review_newest_first (w : World) :
  (forall r, r ∈ all w <-> exists k, review_table w !! k = Some r)
  /\ List.length (all w) = size (review_table w)
  /\ StronglySorted (fun a b => submitted b <= submitted a) (all w).
Proof.
  split; [apply all_elem_of|]. split; [|apply all_sorted].
  unfold all, rows.
  rewrite (merge_sort_Permutation later_or_same), length_fmap.
  apply length_map_to_list.
Qed.

(** X12.  [Review.objects.latest()] raises [DoesNotExist] exactly when the
    table is empty.  Otherwise it returns, without changing the store, a
    stored review that no stored review was submitted later than. *)
Theorem latest_is_a_newest_review (w : World) :
  (review_table w = ∅ <-> latest w = (Raise DoesNotExist, w))
  /\ (review_table w <> ∅ -> exists r, latest w = (Return r, w))
  /\ (forall r w', latest w = (Return r, w') ->
        w' = w
        /\ (exists k, review_table w !! k = Some r)
        /\ forall k' r', review_table w !! k' = Some r' ->
             submitted r' <= submitted r).
Proof.
  pose proof (all_head w) as Hhead. unfold latest.
  destruct (all w) as [|r rest] eqn:E.
  - split; [tauto|]. split; [contradiction|]. intros r w' [=].
  - destruct Hhead as [[k Hk] Hmax]. split; [|split].
    + split; [|discriminate]. intros Hempty.
      rewrite Hempty, lookup_empty in Hk. discriminate.
    + intros _. now exists r.
    + intros r0 w' [= <- <-]. split; [reflexivity|]. split; [eauto | exact Hmax].
Qed.

(** X13.  When the clock is past the submission date of every stored
    review, a newly created review is the latest one: [latest()] called
    after the save returns the instance the save returned. *)
Theorem created_review_is_latest (self : Review) (w : World) :
  pk self = None ->
  (forall k r, review_table w !! k = Some r -> submitted r < clock w) ->
  exists saved w1,
    save self w = (Return saved, w1) /\ latest w1 = (Return saved, w1).
Proof.
  intros Hpk Hpast.
  assert (Hr : row_exists self w = false) by (unfold row_exists; now rewrite Hpk).
  do 2 eexists.
  rewrite save_unfold, Model_save_unfold, Hr. unfold pre_save. simpl.
  split; [reflexivity|].
  set (k := row_key self w).
  set (saved := mkReview (Some k) (document self) (user self)
                         (addlcomments self) (Some (clock w))).
  set (w1 := log _ _).
  assert (Ht : review_table w1 = <[k := saved]> (review_table w)) by reflexivity.
  pose proof (all_head w1) as Hhead. unfold latest.
  destruct (all w1) as [|r rest].
  - rewrite Ht in Hhead. now apply insert_non_empty in Hhead.
  - destruct Hhead as [[k0 Hk0] Hmax].
    specialize (Hmax k saved). rewrite Ht, lookup_insert_eq in Hmax.
    specialize (Hmax eq_refl).
    rewrite Ht in Hk0. apply lookup_insert_Some in Hk0 as [[_ <-]|[_ Hold]].
    + reflexivity.
    + apply Hpast in Hold. unfold submitted in Hmax at 1. simpl in Hmax. lia.
Qed.

(** X14.  The listing follows the table: a review a save returned is
    listed afterwards, and after a delete that returned the listing holds
    exactly the reviews stored under the other primary keys. *)
Theorem listing_follows_save_and_delete (self : Review) (w : World) :
  (forall saved w1, save self w = (Return saved, w1) -> saved ∈ all w1)
  /\ (forall k n w1, pk self = Some k -> delete self w = (Return n, w1) ->
        forall r, r ∈ all w1 <->
                  exists k', k' <> k /\ review_table w !! k' = Some r).
Proof.
  split.
  - intros saved w1. rewrite save_unfold, Model_save_unfold.
    destruct (pre_save _ _ _ _) as [d|]; simpl; [|discriminate].
    intros [= <- <-]. apply all_elem_of. exists (row_key self w).
    simpl. apply lookup_insert_eq.
  - intros k n w1 Hpk. rewrite delete_unfold. unfold Model_delete. rewrite Hpk.
    intros [= _ <-] r. rewrite all_elem_of. simpl.
    split; intros [k' Hk']; exists k'.
    + apply lookup_delete_Some in Hk' as [Hne Hrow]. split; [congruence | exact Hrow].
    + destruct Hk' as [Hne Hrow]. apply lookup_delete_Some. split; [congruence | exact Hrow].
Qed.

End ReviewOrdering.

(** ** The further properties at the sample data *)

Section FurtherWitnesses.
Import Reviews ReviewManager.

Example all_example :
  all world_with_two_reviews = [later_review; stored_review]
  /\ fst (latest world_with_two_reviews) = Return later_review
  /\ fst (latest empty_world) = Raise DoesNotExist.
Proof. repeat split; vm_compute; reflexivity. Qed.

Lemma new_key_is_not_one : 1 <> row_key unsaved_review world_with_review.
Proof.
  intros Heq.
  pose proof (row_key_free unsaved_review world_with_review eq_refl) as Hfree.
  rewrite <- Heq in Hfree. simpl in Hfree.
  rewrite lookup_singleton_eq in Hfree. discriminate.
Qed.

Lemma save_leaves_other_rows_witness :
  review_table (snd (save unsaved_review world_with_review)) !! 1
  = Some stored_review.
Proof.
  rewrite (proj1 (save_leaves_other_rows unsaved_review world_with_review 1
                    new_key_is_not_one)).
  apply lookup_singleton_eq.
Defined.


Lemma second_save_is_an_edit_witness :
  exists saved w1 w2,
    save unsaved_review empty_world = (Return saved, w1)
    /\ save saved w1 = (Return saved, w2)
    /\ review_table w2 = review_table w1
    /\ actions w2 = [created_entry saved; edited_entry saved].
Proof.
  do 2 eexists.
  edestruct (second_save_is_an_edit unsaved_review _ empty_world _ eq_refl)
    as (w2 & Hsave & Htable & Hlog).
  exists w2. split; [reflexivity|]. split; [exact Hsave|].
  split; [exact Htable | exact Hlog].
Defined.

Lemma delete_without_row_still_logs_witness :
  exists w',
    delete stored_review empty_world = (Return 0, w')
    /\ review_table w' = ∅
    /\ actions w' = [deleted_entry stored_review].
Proof.
  destruct (delete_without_row_still_logs stored_review 1 empty_world
              eq_refl (lookup_empty 1)) as (w' & Hdelete & Htable & Hlog).
  exists w'. repeat split; assumption.
Defined.

Lemma calls_keep_well_formed_witness :
  well_formed world_with_review
  /\ well_formed (calls some_calls world_with_review).
Proof.
  split; [exact well_formed_world_with_review|].
  exact (calls_keep_well_formed some_calls world_with_review
           well_formed_world_with_review).
Defined.

Lemma failed_preview_leaves_no_trace_witness :
  exists w',
    DocumentVersionView.dispatch missing_preview_view plain_request empty_world
    = (Raise Http404, w')
    /\ actions w' = [] /\ recent_documents w' = ∅.
Proof.
  exact (failed_preview_leaves_no_trace missing_preview_view plain_request
           empty_world empty_world Http404 eq_refl).
Defined.

Lemma view_action_raises_no_Exception_witness :
  isinstance_Exception (mkExc KeyboardInterrupt "") = false
  /\ @revert interrupted_revert some_version some_user empty_world
     = (Raise (mkExc KeyboardInterrupt ""), empty_world).
Proof.
  exact (@view_action_raises_no_Exception interrupted_revert revert_view
           empty_world empty_world (mkExc KeyboardInterrupt "") eq_refl).
Defined.

Lemma stored_review_is_past : forall k r,
  review_table world_with_review !! k = Some r -> submitted r < clock world_with_review.
Proof.
  intros k r Hrow. simpl in Hrow.
  apply lookup_singleton_Some in Hrow as [_ <-]. reflexivity.
Qed.

Lemma created_review_is_latest_witness :
  exists saved w1,
    save unsaved_review world_with_review = (Return saved, w1)
    /\ latest w1 = (Return saved, w1).
Proof.
  exact (created_review_is_latest unsaved_review world_with_review eq_refl
           stored_review_is_past).
Defined.

Lemma listing_follows_save_and_delete_witness :
  later_review ∈ all (calls [CallDelete stored_review] world_with_two_reviews).
Proof.
  apply (proj2 (listing_follows_save_and_delete stored_review world_with_two_reviews)
           1 _ _ eq_refl eq_refl later_review).
  exists 2. split; [discriminate|]. apply lookup_insert_eq.
Defined.

End FurtherWitnesses.
